(** * Input extractors of [lingvo/tasks/car/input_extractor.py]

    A shallow embedding of the classes [FieldsExtractor] and
    [LaserExtractor], and the properties of their shape / type contract.

    Python objects are modelled by explicit state passing: a method is a
    function from the state of [self] to an outcome (a value or a raised
    exception) and the state of [self] afterwards.  A class is a table of
    methods, so that a call [self.m()] from an inherited method reaches the
    override of the subclass. *)

From Stdlib Require Import ZArith String Ascii.
From stdpp Require Import gmap strings list fin_maps pretty.

Set Warnings "-register-all".
Local Open Scope string_scope.
Local Open Scope Z_scope.

(** ** Exceptions and methods *)

(** The exceptions that leave the module: [raise NotImplementedError()],
    a failed [assert cond, msg], and the [ValueError] with which
    [tf.TensorShape] rejects a dimension. *)
Inductive exn : Type :=
| NotImplementedError
| AssertionError (msg : string)
| ValueError (msg : string).

Inductive result (A : Type) : Type :=
| Ok (a : A)
| Raise (e : exn).
Arguments Ok {A} a.
Arguments Raise {A} e.

(** A method on an object whose state has type [Self]. *)
Definition M (Self A : Type) : Type := Self → result A * Self.

Definition ret {Self A} (a : A) : M Self A := λ self, (Ok a, self).
Definition raise {Self A} (e : exn) : M Self A := λ self, (Raise e, self).
Definition bind {Self A B} (m : M Self A) (k : A → M Self B) : M Self B :=
  λ self,
    match m self with
    | (Ok a, self') => k a self'
    | (Raise e, self') => (Raise e, self')
    end.

#[global] Instance M_ret {Self} : MRet (M Self) := @ret Self.
#[global] Instance M_bind {Self} : MBind (M Self) := λ A B k m, bind m k.

(** [calls m n] is [n] successive calls of [m] on the same object; it
    collects the outcomes in call order and threads the state. *)
Fixpoint calls {Self A} (m : M Self A) (n : nat) (self : Self)
  : list (result A) * Self :=
  match n with
  | O => ([], self)
  | S n' =>
      let '(r, self') := m self in
      let '(rs, self'') := calls m n' self' in
      (r :: rs, self'')
  end.

(** ** TensorFlow values *)

(** [tf.DType]: the element types. *)
Inductive tf_DType : Type :=
| tf_float32 | tf_float64 | tf_int32 | tf_int64 | tf_string | tf_bool.

(** A [tf.TensorShape] value: one entry per dimension, [None] for a
    dimension whose size is not known statically. *)
Record tf_TensorShape : Type := TensorShape { dims : list (option Z) }.

(** The first negative size in a list of dimensions, if there is one. *)
Fixpoint first_negative (ds : list (option Z)) : option Z :=
  match ds with
  | [] => None
  | None :: ds' => first_negative ds'
  | Some n :: ds' => if (n <? 0)%Z then Some n else first_negative ds'
  end.

Module tf.

(** The call [tf.TensorShape(dims)].  The dimensions are converted in
    order; a negative one is refused with
    [ValueError("Dimension %d must be >= 0")], [None] is kept as an
    unknown dimension. *)
Definition TensorShape {Self} (ds : list (option Z)) : M Self tf_TensorShape :=
  match first_negative ds with
  | Some n =>
      raise (ValueError ("Dimension " +:+ pretty n +:+ " must be >= 0"))
  | None => mret (TensorShape ds)
  end.

End tf.

(** [TensorShape.is_fully_defined()]. *)
Definition is_fully_defined (s : tf_TensorShape) : bool :=
  forallb (λ d, match d with Some _ => true | None => false end) (dims s).

#[global] Instance tf_DType_eq_dec : EqDecision tf_DType.
Proof. solve_decision. Defined.
#[global] Instance tf_TensorShape_eq_dec : EqDecision tf_TensorShape.
Proof. solve_decision. Defined.

(** [tf.FixedLenFeature] / [tf.VarLenFeature], the entries of a
    [FeatureMap()]. *)
Inductive tf_Feature : Type :=
| FixedLenFeature (shape : list Z) (dtype : tf_DType)
| VarLenFeature (dtype : tf_DType).

(** ** [py_utils.NestedMap] *)

(** A [NestedMap] is a dictionary from names to values; a value is a leaf
    or again a [NestedMap]. *)
Inductive Value (A : Type) : Type :=
| Leaf (a : A)
| Sub (m : gmap string (Value A)).
Arguments Leaf {A} a.
Arguments Sub {A} m.

Abbreviation NestedMap A := (gmap string (Value A)).

(** The key paths of the leaves below [v], each prefixed by [pre]; they
    serve to render a map. *)
Fixpoint KeyPaths {A} (pre : list string) (v : Value A) : gset (list string) :=
  match v with
  | Leaf _ => {[ pre ]}
  | Sub m => map_fold (λ k v' acc, KeyPaths (pre ++ [k]) v' ∪ acc) ∅ m
  end.

Definition FlattenKeys {A} (m : NestedMap A) : gset (list string) :=
  KeyPaths [] (Sub m).

(** Two values have the same structure when both are leaves, or both are
    maps with the same key set whose values under each key have the same
    structure in turn. *)
Fixpoint same_structure {A B} (x : Value A) (y : Value B) : bool :=
  match x, y with
  | Leaf _, Leaf _ => true
  | Sub m, Sub n =>
      bool_decide (dom m = dom n) &&
      map_fold (λ k v acc,
                  match n !! k with
                  | Some w => same_structure v w
                  | None => false
                  end && acc) true m
  | _, _ => false
  end.

(** Modelled from the spec: [NestedMap.IsCompatible] lives in
    [lingvo/core/py_utils.py], which is not part of the sources at hand.
    The spec words it as: the key set and nested structure of the one map
    exactly match the key set and nested structure of the other. *)
Definition IsCompatible {A B} (x : NestedMap A) (y : NestedMap B) : bool :=
  same_structure (Sub x) (Sub y).

(** [t] occurs in [s] as a contiguous piece. *)
Definition contains (s t : string) : Prop :=
  ∃ before after, s = before +:+ t +:+ after.

(** [NestedMap.DebugString()], the rendering of a map for messages.  It
    lives in [py_utils] with the class; the extractors only pass its
    result on, so it is a parameter of the development, one instance per
    type of leaves. *)
Class NestedMapDebug (A : Type) : Type :=
  DebugString : NestedMap A → string.

(** ** The method table of an extractor class *)

(** The methods a subclass of [FieldsExtractor] can override.  [Tensor] is
    the type of the opaque tensor values, [Self] the state of the
    object.  The argument of [_Extract] is the dictionary of parsed
    features.  [Virtual.m cls] is the method [m] as the class [cls] has
    it, which is what [self.m] denotes on an object of class [cls]. *)
Module Virtual.
Record Extractor (Tensor Self : Type) : Type := {
  FeatureMap : M Self (gmap string tf_Feature);
  _Extract : gmap string Tensor → M Self (NestedMap Tensor);
  Shape : M Self (NestedMap tf_TensorShape);
  DType : M Self (NestedMap tf_DType);
  Filter : NestedMap Tensor → M Self Z;
}.
Arguments FeatureMap {Tensor Self} _.
Arguments _Extract {Tensor Self} _ _.
Arguments Shape {Tensor Self} _.
Arguments DType {Tensor Self} _.
Arguments Filter {Tensor Self} _ _.
End Virtual.

(** An object of a layer class with hyperparameters [P]: [self.params]
    reads the parameters the object was built from.  Whatever else the
    object holds, the extractors never look at it. *)
Class Layer (P Self : Type) : Type :=
  params : Self → P.

(** The plain object that holds its parameters and nothing else. *)
Record Object (P : Type) : Type := { object_params : P }.
Arguments object_params {P} _.

#[global] Instance Object_Layer {P} : Layer P (Object P) := object_params.

(** [p = self.params] *)
Definition self_params {P Self} `{!Layer P Self} : M Self P :=
  λ self, (Ok (params self), self).

(** ** class FieldsExtractor *)
Module FieldsExtractor.

(** The hyperparameters [Params()] returns: [p.name = cls.__name__]. *)
Record hparams : Type := { name : string }.

Definition Params (cls__name__ : string) : hparams :=
  {| name := cls__name__ |}.

Section methods.
Context {Tensor Self : Type}.
Context `{debug_outputs : !NestedMapDebug Tensor}.
Context `{debug_shapes : !NestedMapDebug tf_TensorShape}.

Definition FeatureMap : M Self (gmap string tf_Feature) :=
  raise NotImplementedError.

(** [Extract] calls [self._Extract] and [self.Shape]: the methods of
    the class [cls] of [self]. *)
Definition Extract (cls : Virtual.Extractor Tensor Self)
    (features : gmap string Tensor) : M Self (NestedMap Tensor) :=
  outputs ← Virtual._Extract cls features;
  shapes ← Virtual.Shape cls;
  if IsCompatible outputs shapes then mret outputs
  else raise (AssertionError
                (DebugString outputs +:+ " vs. " +:+ DebugString shapes)).

(** [del outputs; return 1] *)
Definition Filter (outputs : NestedMap Tensor) : M Self Z :=
  mret 1.

Definition Shape : M Self (NestedMap tf_TensorShape) :=
  raise NotImplementedError.

Definition DType : M Self (NestedMap tf_DType) :=
  raise NotImplementedError.

Definition _Extract (features : gmap string Tensor)
  : M Self (NestedMap Tensor) :=
  raise NotImplementedError.

(** The class itself: nothing overridden. *)
Definition class : Virtual.Extractor Tensor Self :=
  {| Virtual.FeatureMap := FeatureMap;
     Virtual._Extract := _Extract;
     Virtual.Shape := Shape;
     Virtual.DType := DType;
     Virtual.Filter := Filter |}.
End methods.

End FieldsExtractor.

(** ** class LaserExtractor(FieldsExtractor) *)
Module LaserExtractor.

Record hparams : Type := {
  name : string;
  max_num_points : option Z;
  num_features : Z;
}.

(** [p = super().Params()], then the two [p.Define]s with their
    defaults [None] and [1]. *)
Definition Params (cls__name__ : string) : hparams :=
  let p := FieldsExtractor.Params cls__name__ in
  {| name := FieldsExtractor.name p;
     max_num_points := None;
     num_features := 1 |}.

(** [p.max_num_points = v] and [p.num_features = v] on a params object. *)
Definition Set_max_num_points (v : option Z) (p : hparams) : hparams :=
  {| name := name p; max_num_points := v; num_features := num_features p |}.
Definition Set_num_features (v : Z) (p : hparams) : hparams :=
  {| name := name p; max_num_points := max_num_points p; num_features := v |}.

Section methods.
Context {Self : Type} `{!Layer hparams Self}.

Definition Shape : M Self (NestedMap tf_TensorShape) :=
  p ← self_params;
  points_xyz ← tf.TensorShape [max_num_points p; Some 3];
  points_feature ← tf.TensorShape [max_num_points p; Some (num_features p)];
  let ret : NestedMap tf_TensorShape :=
    {[ "points_xyz" := Leaf points_xyz;
       "points_feature" := Leaf points_feature ]} in
  if max_num_points p is Some _
  then
    points_padding ← tf.TensorShape [max_num_points p];
    mret (<["points_padding" := Leaf points_padding]> ret)
  else mret ret.

Definition DType : M Self (NestedMap tf_DType) :=
  let ret : NestedMap tf_DType :=
    {[ "points_xyz" := Leaf tf_float32;
       "points_feature" := Leaf tf_float32 ]} in
  p ← self_params;
  let ret :=
    if max_num_points p is Some _
    then <["points_padding" := Leaf tf_float32]> ret
    else ret in
  mret ret.

(** The class: [Shape] and [DType] are its own, the other methods are
    those of [FieldsExtractor]. *)
Definition class {Tensor : Type} : Virtual.Extractor Tensor Self :=
  {| Virtual.FeatureMap := FieldsExtractor.FeatureMap;
     Virtual._Extract := FieldsExtractor._Extract;
     Virtual.Shape := Shape;
     Virtual.DType := DType;
     Virtual.Filter := FieldsExtractor.Filter |}.

End methods.

(** [LaserExtractor(p)] *)
Definition new (p : hparams) : Object hparams := {| object_params := p |}.

End LaserExtractor.

(** Every leaf below [v] satisfies [P]. *)
Fixpoint all_leaves {A} (P : A → bool) (v : Value A) : bool :=
  match v with
  | Leaf a => P a
  | Sub m => map_fold (λ _ v' acc, all_leaves P v' && acc) true m
  end.

(** A shape declaration is fully specified when every shape in it is. *)
Definition fully_specified (shapes : NestedMap tf_TensorShape) : bool :=
  all_leaves is_fully_defined (Sub shapes).

(** A map without nesting: every value is a leaf. *)
Definition flat {A} (m : NestedMap A) : Prop :=
  ∀ k v, m !! k = Some v → ∃ a, v = Leaf a.

(** The sizes in the parameters of a laser extractor are usable as
    dimensions: none is negative. *)
Definition nonnegative_sizes (p : LaserExtractor.hparams) : bool :=
  match LaserExtractor.max_num_points p with
  | Some n => (0 <=? n)%Z
  | None => true
  end && (0 <=? LaserExtractor.num_features p)%Z.

(** The negative size [tf.TensorShape] meets first in
    [LaserExtractor.Shape]: [max_num_points], else [num_features]. *)
Definition offending_size (p : LaserExtractor.hparams) : option Z :=
  match LaserExtractor.max_num_points p with
  | Some n => if (n <? 0)%Z then Some n
              else if (LaserExtractor.num_features p <? 0)%Z
                   then Some (LaserExtractor.num_features p) else None
  | None => if (LaserExtractor.num_features p <? 0)%Z
            then Some (LaserExtractor.num_features p) else None
  end.

(** ** Sample extractors

    Small subclasses of [FieldsExtractor] over integer "tensors", used to
    run the statements below on concrete objects. *)
Module Samples.

(** A rendering that lists the key paths. *)
Definition show_keys {A} (m : NestedMap A) : string :=
  String.concat ","
    (String.concat "." <$> elements (FlattenKeys m)).

Definition xyz_only : NestedMap Z := {[ "points_xyz" := Leaf 7 ]}.
Definition xyz_and_feature : NestedMap Z :=
  {[ "points_xyz" := Leaf 7; "points_feature" := Leaf 9 ]}.
Definition declared : NestedMap tf_TensorShape :=
  {[ "points_xyz" := Leaf (TensorShape [Some 1; Some 3]);
     "points_feature" := Leaf (TensorShape [Some 1; Some 1]) ]}.

(** The two declared fields and, beside them, a map that holds nothing
    but an empty map. *)
Definition with_empty_submap : NestedMap Z :=
  {[ "points_xyz" := Leaf 7; "points_feature" := Leaf 9;
     "junk" := Sub {[ "deep" := Sub ∅ ]} ]}.

(** A laser extractor whose [max_num_points] is [-1]. *)
Definition negative_points : Object LaserExtractor.hparams :=
  LaserExtractor.new
    (LaserExtractor.Set_max_num_points (Some (-1))
       (LaserExtractor.Params "LaserExtractor")).

(** [_Extract] returns [out], [Shape] declares [declared]; the object
    has no state. *)
Definition extractor (out : NestedMap Z) : Virtual.Extractor Z unit :=
  {| Virtual.FeatureMap := mret ∅;
     Virtual._Extract := λ _, mret out;
     Virtual.Shape := mret declared;
     Virtual.DType := FieldsExtractor.DType;
     Virtual.Filter := FieldsExtractor.Filter |}.

End Samples.

(** * Properties *)

(** ** Structure and compatibility *)

Lemma map_fold_andb_true {A} (f : string → A → bool) (m : gmap string A) :
  map_fold (λ k v acc, f k v && acc) true m = true ↔
  ∀ k v, m !! k = Some v → f k v = true.
Proof.
  apply (map_fold_weak_ind
           (λ r m, r = true ↔ ∀ k v, m !! k = Some v → f k v = true)).
  - split; [|done]. intros _ k v Hk. by rewrite lookup_empty in Hk.
  - intros i x m' r Hi IH. rewrite andb_true_iff, IH. split.
    + intros [Hx Hm'] k v Hk.
      apply lookup_insert_Some in Hk as [[<- <-] | [_ Hk]]; eauto.
    + intros Hall. split.
      * apply Hall. by rewrite lookup_insert_eq.
      * intros k v Hk. apply Hall. rewrite lookup_insert_ne; [done|].
        intros ->. congruence.
Qed.

(** Two maps have the same structure exactly when they have the same keys
    and, under each key, values of the same structure. *)
Lemma same_structure_Sub {A B} (m : NestedMap A) (n : NestedMap B) :
  same_structure (Sub m) (Sub n) = true ↔
  dom m = dom n ∧
  ∀ k v w, m !! k = Some v → n !! k = Some w → same_structure v w = true.
Proof.
  simpl. rewrite andb_true_iff, bool_decide_eq_true, map_fold_andb_true.
  split; intros [Hdom Hall]; (split; [done|]).
  - intros k v w Hv Hw. specialize (Hall k v Hv). by rewrite Hw in Hall.
  - intros k v Hv.
    assert (is_Some (n !! k)) as [w Hw].
    { apply elem_of_dom. rewrite <- Hdom. apply elem_of_dom. eauto. }
    rewrite Hw. eauto.
Qed.

Lemma IsCompatible_true {A B} (x : NestedMap A) (y : NestedMap B) :
  IsCompatible x y = true ↔
  dom x = dom y ∧
  ∀ k v w, x !! k = Some v → y !! k = Some w → same_structure v w = true.
Proof. apply same_structure_Sub. Qed.

(** Maps with different key sets are never compatible. *)
Lemma IsCompatible_dom_ne {A B} (x : NestedMap A) (y : NestedMap B) :
  dom x ≠ dom y → IsCompatible x y = false.
Proof.
  intros Hdom. destruct (IsCompatible x y) eqn:Hcompat; [|done].
  apply IsCompatible_true in Hcompat as [? _]. done.
Qed.

(** On maps without nesting, [IsCompatible] compares the key sets. *)
Lemma IsCompatible_flat {A B} (x : NestedMap A) (y : NestedMap B) :
  flat x → flat y → IsCompatible x y = true ↔ dom x = dom y.
Proof.
  intros Hx Hy. rewrite IsCompatible_true. split; [by intros [? _]|].
  intros Hdom. split; [done|]. intros k v w Hv Hw.
  destruct (Hx _ _ Hv) as [a ->], (Hy _ _ Hw) as [b ->]. done.
Qed.

Lemma flat_singleton {A} (k : string) (a : A) :
  flat ({[ k := Leaf a ]} : NestedMap A).
Proof.
  intros k' v Hk. apply lookup_singleton_Some in Hk as [_ <-]. eauto.
Qed.

Lemma flat_insert {A} (k : string) (a : A) (m : NestedMap A) :
  flat m → flat (<[k := Leaf a]> m).
Proof.
  intros Hm k' v Hk. apply lookup_insert_Some in Hk as [[_ <-] | [_ Hk]].
  - eauto.
  - by apply (Hm k').
Qed.

Lemma append_cons (c : ascii) (s t : string) :
  String c s +:+ t = String c (s +:+ t).
Proof. reflexivity. Qed.

Lemma append_nil_r (s : string) : s +:+ "" = s.
Proof. induction s as [|c s IH]; [done|]. by rewrite append_cons, IH. Qed.

Lemma append_assoc (s t u : string) : (s +:+ t) +:+ u = s +:+ t +:+ u.
Proof. induction s as [|c s IH]; [done|]. by rewrite !append_cons, IH. Qed.

Lemma contains_prefix (s t : string) : contains (s +:+ t) s.
Proof. exists "", t. reflexivity. Qed.

Lemma contains_suffix (s t : string) : contains (s +:+ t) t.
Proof. exists s, "". by rewrite append_nil_r. Qed.

(** ** [FieldsExtractor.Extract] *)

Section Extract_properties.
Context {Tensor Self : Type}.
Context `{debug_outputs : !NestedMapDebug Tensor}.
Context `{debug_shapes : !NestedMapDebug tf_TensorShape}.
Implicit Types (cls : Virtual.Extractor Tensor Self).
Implicit Types (features : gmap string Tensor) (self : Self).

(** The three statements of [Extract], with the binds spelled out. *)
Lemma Extract_eq cls features self :
  FieldsExtractor.Extract cls features self =
  match Virtual._Extract cls features self with
  | (Raise e, self1) => (Raise e, self1)
  | (Ok outputs, self1) =>
      match Virtual.Shape cls self1 with
      | (Raise e, self2) => (Raise e, self2)
      | (Ok shapes, self2) =>
          if IsCompatible outputs shapes then (Ok outputs, self2)
          else (Raise (AssertionError (DebugString outputs +:+ " vs. "
                                         +:+ DebugString shapes)), self2)
      end
  end.
Proof.
  unfold FieldsExtractor.Extract, mbind, M_bind, bind.
  destruct (Virtual._Extract cls features self) as [[outputs|e] self1];
    [|done].
  destruct (Virtual.Shape cls self1) as [[shapes|e] self2]; [|done].
  by destruct (IsCompatible outputs shapes).
Qed.

(** An exception of [_Extract] leaves [Extract] at once: [Shape] is not
    called, nothing is compared. *)
Lemma Extract_raises_early cls features self e self1 :
  Virtual._Extract cls features self = (Raise e, self1) →
  FieldsExtractor.Extract cls features self = (Raise e, self1).
Proof. intros H. by rewrite Extract_eq, H. Qed.

(** C1.  [Extract] runs [_Extract] on the feature dictionary, then
    [Shape] on the same object.  When both return, [Extract] returns the
    output if its key set and nesting match those of the declared shapes:
    the two maps have the same keys and, under each key, values of the
    same structure.  On any mismatch it raises an assertion error whose
    message contains the rendering of the output and the rendering of the
    declared shapes; a difference of the key sets alone is such a
    mismatch. *)
Theorem Extract_shape_contract cls features self outputs self1 shapes self2 :
  Virtual._Extract cls features self = (Ok outputs, self1) →
  Virtual.Shape cls self1 = (Ok shapes, self2) →
  let matches :=
    dom outputs = dom shapes ∧
    ∀ k v w, outputs !! k = Some v → shapes !! k = Some w →
             same_structure v w = true in
  let fails :=
    ∃ msg,
      FieldsExtractor.Extract cls features self
        = (Raise (AssertionError msg), self2) ∧
      contains msg (DebugString outputs) ∧
      contains msg (DebugString shapes) in
  (matches →
     FieldsExtractor.Extract cls features self = (Ok outputs, self2)) ∧
  (¬ matches → fails) ∧
  (dom outputs ≠ dom shapes → fails).
Proof.
  intros Hextract Hshape matches fails.
  assert (Hfails : IsCompatible outputs shapes = false → fails).
  { intros Hcompat. unfold fails.
    rewrite Extract_eq, Hextract, Hshape, Hcompat.
    eexists. split; [reflexivity|]. split.
    - apply contains_prefix.
    - rewrite <- append_assoc. apply contains_suffix. }
  split; [|split].
  - intros Hmatch. apply IsCompatible_true in Hmatch.
    by rewrite Extract_eq, Hextract, Hshape, Hmatch.
  - intros Hmismatch. apply Hfails.
    destruct (IsCompatible outputs shapes) eqn:Hcompat; [|done].
    exfalso. by apply Hmismatch, IsCompatible_true.
  - intros Hdom. by apply Hfails, IsCompatible_dom_ne.
Qed.

(** C9.  [Extract] returns a value exactly when [_Extract] and [Shape]
    return and the check passes, and the value is then the very output
    of [_Extract]: no field is changed, added or removed on the way. *)
Theorem Extract_returns_output_unchanged cls features self out self' :
  FieldsExtractor.Extract cls features self = (Ok out, self') ↔
  ∃ self1 shapes,
    Virtual._Extract cls features self = (Ok out, self1) ∧
    Virtual.Shape cls self1 = (Ok shapes, self') ∧
    IsCompatible out shapes = true.
Proof.
  rewrite Extract_eq. split.
  - destruct (Virtual._Extract cls features self) as [[outputs|e] self1];
      [|done].
    destruct (Virtual.Shape cls self1) as [[shapes|e] self2] eqn:Hshape;
      [|done].
    destruct (IsCompatible outputs shapes) eqn:Hcompat; [|done].
    intros [= -> ->]. eauto.
  - intros (self1 & shapes & -> & -> & ->). done.
Qed.

(** C4.  The [Filter] of [FieldsExtractor] returns [1] on every output
    and leaves the object alone; so does every class that takes its
    [Filter] from [FieldsExtractor], whatever its other methods are. *)
Theorem Filter_default_returns_1 (outputs : NestedMap Tensor) self :
  FieldsExtractor.Filter outputs self = (Ok 1, self) ∧
  Virtual.Filter FieldsExtractor.class outputs self = (Ok 1, self) ∧
  ∀ feature_map extract shape dtype,
    Virtual.Filter
      {| Virtual.FeatureMap := feature_map;
         Virtual._Extract := extract;
         Virtual.Shape := shape;
         Virtual.DType := dtype;
         Virtual.Filter := FieldsExtractor.Filter |} outputs self
    = (Ok 1, self).
Proof. repeat split. Qed.

(** C5.  On an object of [FieldsExtractor] itself, [Extract] raises
    [NotImplementedError]; the exception is the one of [_Extract], since
    any class that keeps the [_Extract] of [FieldsExtractor] raises it
    whatever its [Shape] does.  [Shape], [DType] and [FeatureMap] of
    [FieldsExtractor] raise [NotImplementedError] as well. *)
Theorem FieldsExtractor_not_implemented features self :
  FieldsExtractor.Extract FieldsExtractor.class features self
    = (Raise NotImplementedError, self) ∧
  (∀ feature_map shape dtype filter,
     FieldsExtractor.Extract
       {| Virtual.FeatureMap := feature_map;
          Virtual._Extract := FieldsExtractor._Extract;
          Virtual.Shape := shape;
          Virtual.DType := dtype;
          Virtual.Filter := filter |} features self
     = (Raise NotImplementedError, self)) ∧
  Virtual.Shape (Tensor:=Tensor) FieldsExtractor.class self
    = (Raise NotImplementedError, self) ∧
  Virtual.DType (Tensor:=Tensor) FieldsExtractor.class self
    = (Raise NotImplementedError, self) ∧
  Virtual.FeatureMap (Tensor:=Tensor) FieldsExtractor.class self
    = (Raise NotImplementedError, self).
Proof.
  split; [|split; [|done]].
  - by apply Extract_raises_early.
  - intros. by apply Extract_raises_early.
Qed.

End Extract_properties.

(** ** [LaserExtractor] *)

Lemma nonnegative_sizes_true (p : LaserExtractor.hparams) :
  nonnegative_sizes p = true ↔
  (∀ n, LaserExtractor.max_num_points p = Some n → 0 ≤ n) ∧
  0 ≤ LaserExtractor.num_features p.
Proof.
  unfold nonnegative_sizes. rewrite andb_true_iff, Z.leb_le.
  destruct (LaserExtractor.max_num_points p) as [n|].
  - rewrite Z.leb_le. split; intros [Hn Hf]; (split; [|done]).
    + by intros ? [= <-].
    + by apply Hn.
  - split; intros [_ Hf]; (split; [done|done]).
Qed.

(** When a size is negative, [offending_size] names it. *)
Lemma nonnegative_sizes_false (p : LaserExtractor.hparams) :
  nonnegative_sizes p = false →
  ∃ d, offending_size p = Some d ∧ d < 0 ∧
       (LaserExtractor.max_num_points p = Some d ∨
        LaserExtractor.num_features p = d).
Proof.
  unfold nonnegative_sizes, offending_size.
  rewrite andb_false_iff, !Z.leb_gt.
  destruct (LaserExtractor.max_num_points p) as [n|].
  - rewrite Z.leb_gt. intros Hneg.
    destruct (Z.ltb_spec n 0) as [Hn|Hn]; [by eauto|].
    destruct (Z.ltb_spec (LaserExtractor.num_features p) 0) as [Hf|Hf];
      [by eauto|lia].
  - intros [?|Hf]; [done|].
    destruct (Z.ltb_spec (LaserExtractor.num_features p) 0); [by eauto|lia].
Qed.

Lemma offending_size_None (p : LaserExtractor.hparams) :
  nonnegative_sizes p = true → offending_size p = None.
Proof.
  intros [Hn Hf]%nonnegative_sizes_true. unfold offending_size.
  destruct (LaserExtractor.max_num_points p) as [n|].
  - specialize (Hn n eq_refl).
    destruct (Z.ltb_spec n 0); [lia|].
    destruct (Z.ltb_spec (LaserExtractor.num_features p) 0); [lia|done].
  - destruct (Z.ltb_spec (LaserExtractor.num_features p) 0); [lia|done].
Qed.

Section LaserExtractor_properties.
Context {Self : Type} `{!Layer LaserExtractor.hparams Self}.
Implicit Types (self : Self).

(** What [Shape] and [DType] return, by the cases of the parameters;
    neither touches the object. *)
Lemma LaserExtractor_Shape_None self :
  LaserExtractor.max_num_points (params self) = None →
  0 ≤ LaserExtractor.num_features (params self) →
  LaserExtractor.Shape self =
    (Ok {[ "points_xyz" := Leaf (TensorShape [None; Some 3]);
           "points_feature" :=
             Leaf (TensorShape
                     [None; Some (LaserExtractor.num_features (params self))])
        ]}, self).
Proof.
  intros Hmax Hf.
  unfold LaserExtractor.Shape, mbind, M_bind, bind, self_params,
    tf.TensorShape.
  simpl. rewrite Hmax. simpl.
  destruct (Z.ltb_spec (LaserExtractor.num_features (params self)) 0);
    [lia|done].
Qed.

Lemma LaserExtractor_Shape_Some self (n : Z) :
  LaserExtractor.max_num_points (params self) = Some n →
  0 ≤ n →
  0 ≤ LaserExtractor.num_features (params self) →
  LaserExtractor.Shape self =
    (Ok (<["points_padding" := Leaf (TensorShape [Some n])]>
           {[ "points_xyz" := Leaf (TensorShape [Some n; Some 3]);
              "points_feature" :=
                Leaf (TensorShape
                   [Some n; Some (LaserExtractor.num_features (params self))])
           ]}), self).
Proof.
  intros Hmax Hn Hf.
  unfold LaserExtractor.Shape, mbind, M_bind, bind, self_params,
    tf.TensorShape.
  simpl. rewrite Hmax. simpl.
  destruct (Z.ltb_spec n 0); [lia|]. simpl.
  destruct (Z.ltb_spec (LaserExtractor.num_features (params self)) 0);
    [lia|done].
Qed.

(** With a negative size, [Shape] raises the [ValueError] of
    [tf.TensorShape] for the first such size it passes on. *)
Lemma LaserExtractor_Shape_raises self (d : Z) :
  offending_size (params self) = Some d →
  LaserExtractor.Shape self =
    (Raise (ValueError ("Dimension " +:+ pretty d +:+ " must be >= 0")),
     self).
Proof.
  unfold offending_size. intros Hd.
  unfold LaserExtractor.Shape, mbind, M_bind, bind, self_params,
    tf.TensorShape.
  simpl. destruct (LaserExtractor.max_num_points (params self)) as [n|];
    simpl.
  - destruct (Z.ltb_spec n 0); simpl.
    + by injection Hd as ->.
    + destruct (Z.ltb_spec (LaserExtractor.num_features (params self)) 0);
        simpl; [by injection Hd as ->|done].
  - destruct (Z.ltb_spec (LaserExtractor.num_features (params self)) 0);
      simpl; [by injection Hd as ->|done].
Qed.

Lemma LaserExtractor_DType_None self :
  LaserExtractor.max_num_points (params self) = None →
  LaserExtractor.DType self =
    (Ok {[ "points_xyz" := Leaf tf_float32;
           "points_feature" := Leaf tf_float32 ]}, self).
Proof.
  intros Hmax. unfold LaserExtractor.DType, mbind, M_bind, bind, self_params.
  simpl. by rewrite Hmax.
Qed.

Lemma LaserExtractor_DType_Some self (n : Z) :
  LaserExtractor.max_num_points (params self) = Some n →
  LaserExtractor.DType self =
    (Ok (<["points_padding" := Leaf tf_float32]>
           {[ "points_xyz" := Leaf tf_float32;
              "points_feature" := Leaf tf_float32 ]}), self).
Proof.
  intros Hmax. unfold LaserExtractor.DType, mbind, M_bind, bind, self_params.
  simpl. by rewrite Hmax.
Qed.

(** The two outcomes of [Shape]: a declaration when no size is negative,
    the [ValueError] otherwise. *)
Lemma LaserExtractor_Shape_cases self :
  (nonnegative_sizes (params self) = true ∧
   ∃ shapes, LaserExtractor.Shape self = (Ok shapes, self)) ∨
  (nonnegative_sizes (params self) = false ∧
   ∃ msg, LaserExtractor.Shape self = (Raise (ValueError msg), self)).
Proof.
  destruct (nonnegative_sizes (params self)) eqn:Hsizes.
  - left. split; [done|].
    apply nonnegative_sizes_true in Hsizes as [Hn Hf].
    destruct (LaserExtractor.max_num_points (params self)) as [n|] eqn:Hmax.
    + eexists. apply (LaserExtractor_Shape_Some self n Hmax); [|done].
      by apply Hn.
    + eexists. by apply LaserExtractor_Shape_None.
  - right. split; [done|].
    apply nonnegative_sizes_false in Hsizes as (d & Hd & _).
    eexists. by apply LaserExtractor_Shape_raises.
Qed.

(** Both methods leave the object alone, and their outcome is read off
    the parameters alone. *)
Lemma LaserExtractor_Shape_DType_of_params self :
  ∃ outcome dtypes,
    ∀ self', params self' = params self →
      LaserExtractor.Shape self' = (outcome, self') ∧
      LaserExtractor.DType self' = (Ok dtypes, self').
Proof.
  assert (∃ dtypes, ∀ self', params self' = params self →
            LaserExtractor.DType self' = (Ok dtypes, self'))
    as [dtypes Hdtypes].
  { destruct (LaserExtractor.max_num_points (params self)) as [n|] eqn:Hmax.
    - eexists. intros self' Hp. rewrite <- Hp in Hmax.
      exact (LaserExtractor_DType_Some self' n Hmax).
    - eexists. intros self' Hp. rewrite <- Hp in Hmax.
      exact (LaserExtractor_DType_None self' Hmax). }
  destruct (nonnegative_sizes (params self)) eqn:Hsizes.
  - apply nonnegative_sizes_true in Hsizes as [Hn Hf].
    destruct (LaserExtractor.max_num_points (params self)) as [n|] eqn:Hmax.
    + eexists _, dtypes. intros self' Hp. split; [|by apply Hdtypes].
      rewrite <- Hp in Hmax, Hf.
      rewrite (LaserExtractor_Shape_Some self' n Hmax (Hn n eq_refl) Hf).
      by rewrite Hp.
    + eexists _, dtypes. intros self' Hp. split; [|by apply Hdtypes].
      rewrite <- Hp in Hmax, Hf.
      rewrite (LaserExtractor_Shape_None self' Hmax Hf). by rewrite Hp.
  - apply nonnegative_sizes_false in Hsizes as (d & Hd & _).
    eexists _, dtypes. intros self' Hp. split; [|by apply Hdtypes].
    rewrite <- Hp in Hd. exact (LaserExtractor_Shape_raises self' d Hd).
Qed.

(** What [Shape] returned, when it returned. *)
Lemma LaserExtractor_Shape_Ok_inv self shapes self' :
  LaserExtractor.Shape self = (Ok shapes, self') →
  self' = self ∧
  0 ≤ LaserExtractor.num_features (params self) ∧
  ((LaserExtractor.max_num_points (params self) = None ∧
    shapes =
      {[ "points_xyz" := Leaf (TensorShape [None; Some 3]);
         "points_feature" :=
           Leaf (TensorShape
                   [None; Some (LaserExtractor.num_features (params self))])
      ]}) ∨
   (∃ n, LaserExtractor.max_num_points (params self) = Some n ∧ 0 ≤ n ∧
         shapes =
           <["points_padding" := Leaf (TensorShape [Some n])]>
             {[ "points_xyz" := Leaf (TensorShape [Some n; Some 3]);
                "points_feature" :=
                  Leaf (TensorShape
                     [Some n;
                      Some (LaserExtractor.num_features (params self))]) ]})).
Proof.
  intros Hshape.
  destruct (nonnegative_sizes (params self)) eqn:Hsizes.
  - apply nonnegative_sizes_true in Hsizes as [Hn Hf].
    destruct (LaserExtractor.max_num_points (params self)) as [n|] eqn:Hmax.
    + rewrite (LaserExtractor_Shape_Some self n Hmax (Hn n eq_refl) Hf)
        in Hshape.
      injection Hshape as <- <-. repeat split; [done|]. right.
      exists n. repeat split. by apply Hn.
    + rewrite (LaserExtractor_Shape_None self Hmax Hf) in Hshape.
      injection Hshape as <- <-. repeat split; [done|]. by left.
  - apply nonnegative_sizes_false in Hsizes as (d & Hd & _).
    by rewrite (LaserExtractor_Shape_raises self d Hd) in Hshape.
Qed.

(** C2.  Whatever the parameters, [DType()] returns and has the field
    [points_padding] if and only if [max_num_points] is not [None].  When
    no size in the parameters is negative, [Shape()] returns and has the
    field under the same condition; when one is negative, [Shape()]
    raises [ValueError] and declares nothing. *)
Theorem points_padding_iff_max_num_points self :
  (∃ dtypes,
     LaserExtractor.DType self = (Ok dtypes, self) ∧
     (is_Some (dtypes !! "points_padding") ↔
        LaserExtractor.max_num_points (params self) ≠ None)) ∧
  (nonnegative_sizes (params self) = true →
     ∃ shapes,
       LaserExtractor.Shape self = (Ok shapes, self) ∧
       (is_Some (shapes !! "points_padding") ↔
          LaserExtractor.max_num_points (params self) ≠ None)) ∧
  (nonnegative_sizes (params self) = false →
     ∃ msg, LaserExtractor.Shape self = (Raise (ValueError msg), self)).
Proof.
  split; [|split].
  - destruct (LaserExtractor.max_num_points (params self)) as [n|] eqn:Hmax.
    + eexists. split; [exact (LaserExtractor_DType_Some self n Hmax)|].
      rewrite lookup_insert_eq. split; [done|eauto].
    + eexists. split; [exact (LaserExtractor_DType_None self Hmax)|].
      split; [intros [v Hv]; by vm_compute in Hv | done].
  - intros [Hn Hf]%nonnegative_sizes_true.
    destruct (LaserExtractor.max_num_points (params self)) as [n|] eqn:Hmax.
    + eexists. split.
      * exact (LaserExtractor_Shape_Some self n Hmax (Hn n eq_refl) Hf).
      * rewrite lookup_insert_eq. split; [done|eauto].
    + eexists. split; [exact (LaserExtractor_Shape_None self Hmax Hf)|].
      split; [intros [v Hv]; by vm_compute in Hv | done].
  - intros (d & Hd & _)%nonnegative_sizes_false.
    eexists. exact (LaserExtractor_Shape_raises self d Hd).
Qed.

(** C3.  When no size in the parameters is negative, [Shape()] and
    [DType()] both return and have the same key set; neither map is
    nested, so the two declarations are compatible as nested maps.  When
    a size is negative, [DType()] still returns while [Shape()] raises
    [ValueError]. *)
Theorem Shape_DType_same_keys self :
  (nonnegative_sizes (params self) = true →
     ∃ shapes dtypes,
       LaserExtractor.Shape self = (Ok shapes, self) ∧
       LaserExtractor.DType self = (Ok dtypes, self) ∧
       dom shapes = dom dtypes ∧
       IsCompatible shapes dtypes = true) ∧
  (nonnegative_sizes (params self) = false →
     ∃ msg dtypes,
       LaserExtractor.Shape self = (Raise (ValueError msg), self) ∧
       LaserExtractor.DType self = (Ok dtypes, self)).
Proof.
  split.
  - intros [Hn Hf]%nonnegative_sizes_true.
    destruct (LaserExtractor.max_num_points (params self)) as [n|] eqn:Hmax.
    + eexists _, _. split.
      { exact (LaserExtractor_Shape_Some self n Hmax (Hn n eq_refl) Hf). }
      split; [exact (LaserExtractor_DType_Some self n Hmax)|].
      assert (Hdom : ∀ A B (a b c : A) (a' b' c' : B),
                dom (<["points_padding" := Leaf a]>
                       ({[ "points_xyz" := Leaf b;
                           "points_feature" := Leaf c ]} : NestedMap A))
                = dom (<["points_padding" := Leaf a']>
                         ({[ "points_xyz" := Leaf b';
                             "points_feature" := Leaf c' ]} : NestedMap B))).
      { intros. by rewrite !dom_insert_L, !dom_singleton_L. }
      split; [apply Hdom|].
      apply IsCompatible_flat; [| |apply Hdom];
        apply flat_insert, flat_insert, flat_singleton.
    + eexists _, _. split.
      { exact (LaserExtractor_Shape_None self Hmax Hf). }
      split; [exact (LaserExtractor_DType_None self Hmax)|].
      assert (Hdom : ∀ A B (b c : A) (b' c' : B),
                dom ({[ "points_xyz" := Leaf b;
                        "points_feature" := Leaf c ]} : NestedMap A)
                = dom ({[ "points_xyz" := Leaf b';
                          "points_feature" := Leaf c' ]} : NestedMap B)).
      { intros. by rewrite !dom_insert_L, !dom_singleton_L. }
      split; [apply Hdom|].
      apply IsCompatible_flat; [| |apply Hdom];
        apply flat_insert, flat_singleton.
  - intros (d & Hd & _)%nonnegative_sizes_false.
    destruct (LaserExtractor.max_num_points (params self)) as [n|] eqn:Hmax.
    + eexists _, _. split; [exact (LaserExtractor_Shape_raises self d Hd)|].
      exact (LaserExtractor_DType_Some self n Hmax).
    + eexists _, _. split; [exact (LaserExtractor_Shape_raises self d Hd)|].
      exact (LaserExtractor_DType_None self Hmax).
Qed.

(** With [max_num_points] set and no negative size, every declared shape
    is fully specified. *)
Lemma LaserExtractor_Shape_fully_specified self (n : Z) :
  LaserExtractor.max_num_points (params self) = Some n →
  0 ≤ n →
  0 ≤ LaserExtractor.num_features (params self) →
  ∃ shapes,
    LaserExtractor.Shape self = (Ok shapes, self) ∧
    fully_specified shapes = true.
Proof.
  intros Hmax Hn Hf. eexists.
  split; [exact (LaserExtractor_Shape_Some self n Hmax Hn Hf)|].
  by vm_compute.
Qed.

(** A method that gives the same outcome and leaves the object alone
    does so however often it is called. *)
Lemma calls_pure {A} (m : M Self A) (r : result A) self (n : nat) :
  m self = (r, self) → calls m n self = (replicate n r, self).
Proof.
  intros Hm. induction n as [|n IH]; simpl; [done|]. by rewrite Hm, IH.
Qed.

(** C8.  On a laser extractor, any number of successive calls of
    [Shape()], of [DType()] or of [FeatureMap()] gives the same outcome
    each time (the same declaration, or the same exception) and leaves
    the object as it was; the outcome is fixed by the parameters: an
    object with the same parameters gets the same outcome, whatever else
    differs in its state. *)
Theorem Shape_DType_FeatureMap_idempotent self :
  ∃ (shape_outcome : result (NestedMap tf_TensorShape)) dtypes,
    (∀ n, calls LaserExtractor.Shape n self
            = (replicate n shape_outcome, self)) ∧
    (∀ n, calls LaserExtractor.DType n self
            = (replicate n (Ok dtypes), self)) ∧
    (∀ Tensor n,
        calls (Virtual.FeatureMap (LaserExtractor.class (Tensor:=Tensor))) n self
          = (replicate n (Raise NotImplementedError), self)) ∧
    (∀ self',
        params self' = params self →
        LaserExtractor.Shape self' = (shape_outcome, self') ∧
        LaserExtractor.DType self' = (Ok dtypes, self')).
Proof.
  destruct (LaserExtractor_Shape_DType_of_params self)
    as (outcome & dtypes & Hparams).
  destruct (Hparams self eq_refl) as [Hshape Hdtype].
  exists outcome, dtypes. repeat split.
  - intros n. by apply calls_pure.
  - intros n. by apply calls_pure.
  - intros Tensor n. by apply calls_pure.
  - by apply Hparams.
  - by apply Hparams.
Qed.

(** C10.  [LaserExtractor] takes [_Extract], [FeatureMap] and [Filter]
    from [FieldsExtractor].  Hence, whatever its parameters, [Extract] on
    any feature dictionary and [FeatureMap()] raise
    [NotImplementedError], and [Filter] returns [1] on every output. *)
Theorem LaserExtractor_inherits_stubs {Tensor : Type}
    `{debug_outputs : !NestedMapDebug Tensor}
    `{debug_shapes : !NestedMapDebug tf_TensorShape}
    (features : gmap string Tensor) (outputs : NestedMap Tensor) self :
  Virtual._Extract LaserExtractor.class features
    = FieldsExtractor._Extract features ∧
  FieldsExtractor.Extract LaserExtractor.class features self
    = (Raise NotImplementedError, self) ∧
  Virtual.FeatureMap (LaserExtractor.class (Tensor:=Tensor)) self
    = (Raise NotImplementedError, self) ∧
  Virtual.Filter LaserExtractor.class outputs self = (Ok 1, self).
Proof.
  split; [done|]. split; [|done]. by apply Extract_raises_early.
Qed.

End LaserExtractor_properties.

(** C6.  A laser extractor built from the default parameters
    ([max_num_points = None]) declares [points_xyz] with the shape
    [[None, 3]] and [points_feature] with [[None, 1]]: the first dimension
    of both is unknown, so its [Shape()] is not fully specified. *)
Theorem LaserExtractor_default_Shape_not_fully_specified :
  let self := LaserExtractor.new (LaserExtractor.Params "LaserExtractor") in
  ∃ shapes,
    LaserExtractor.Shape self = (Ok shapes, self) ∧
    shapes !! "points_xyz" = Some (Leaf (TensorShape [None; Some 3])) ∧
    shapes !! "points_feature" = Some (Leaf (TensorShape [None; Some 1])) ∧
    fully_specified shapes = false.
Proof. intros self. eexists. split; [reflexivity|]. by vm_compute. Qed.

(** C7.  The laser extractor with [max_num_points = 1024] and
    [num_features = 4] declares the shapes [points_xyz: [1024, 3]],
    [points_feature: [1024, 4]], [points_padding: [1024]], and the type
    [tf.float32] for the three fields. *)
Theorem LaserExtractor_1024_points_4_features :
  let p := LaserExtractor.Set_num_features 4
             (LaserExtractor.Set_max_num_points (Some 1024)
                (LaserExtractor.Params "LaserExtractor")) in
  let self := LaserExtractor.new p in
  LaserExtractor.Shape self =
    (Ok {[ "points_xyz" := Leaf (TensorShape [Some 1024; Some 3]);
           "points_feature" := Leaf (TensorShape [Some 1024; Some 4]);
           "points_padding" := Leaf (TensorShape [Some 1024]) ]}, self) ∧
  LaserExtractor.DType self =
    (Ok {[ "points_xyz" := Leaf tf_float32;
           "points_feature" := Leaf tf_float32;
           "points_padding" := Leaf tf_float32 ]}, self).
Proof. by vm_compute. Qed.

(** ** The statements at concrete objects *)

(** [Extract] on the sample whose [_Extract] returns [points_xyz] alone
    while [Shape] declares [points_xyz] and [points_feature]: the
    assertion fails and the message shows both key lists. *)
Lemma Extract_shape_contract_witness :
  ∃ msg,
    FieldsExtractor.Extract (debug_outputs:=Samples.show_keys)
        (debug_shapes:=Samples.show_keys)
        (Samples.extractor Samples.xyz_only) ∅ ()
      = (Raise (AssertionError msg), ()) ∧
    contains msg "points_xyz" ∧
    contains msg "points_xyz,points_feature".
Proof.
  refine (proj2 (proj2
            (Extract_shape_contract (debug_outputs:=Samples.show_keys)
               (debug_shapes:=Samples.show_keys)
               (Samples.extractor Samples.xyz_only) ∅ ()
               Samples.xyz_only () Samples.declared ()
               eq_refl eq_refl)) _).
  apply (bool_decide_eq_false_1 _). vm_compute. reflexivity.
Defined.

(** An output with the two declared fields and, beside them, a map that
    holds nothing but an empty map has another key set than the
    declaration: [Extract] refuses it. *)
Example Extract_refuses_empty_submap :
  ∃ msg,
    FieldsExtractor.Extract (debug_outputs:=Samples.show_keys)
        (debug_shapes:=Samples.show_keys)
        (Samples.extractor Samples.with_empty_submap) ∅ ()
      = (Raise (AssertionError msg), ()).
Proof. eexists. vm_compute. reflexivity. Qed.

(** [Extract] on the sample whose [_Extract] returns both declared
    fields: the value returned is the output of [_Extract]. *)
Lemma Extract_returns_output_unchanged_witness :
  ∃ self1 shapes,
    Virtual._Extract (Samples.extractor Samples.xyz_and_feature) ∅ ()
      = (Ok Samples.xyz_and_feature, self1) ∧
    Virtual.Shape (Samples.extractor Samples.xyz_and_feature) self1
      = (Ok shapes, ()) ∧
    IsCompatible Samples.xyz_and_feature shapes = true.
Proof.
  refine (proj1 (Extract_returns_output_unchanged
                   (debug_outputs:=Samples.show_keys)
                   (debug_shapes:=Samples.show_keys)
                   (Samples.extractor Samples.xyz_and_feature) ∅ ()
                   Samples.xyz_and_feature ()) _).
  vm_compute. reflexivity.
Defined.

(** With [max_num_points = -1], which is not [None], [DType()] has the
    field [points_padding] while [Shape()] raises and so has no field at
    all: the field is not present in both. *)
Lemma points_padding_counterexample :
  let self := Samples.negative_points in
  LaserExtractor.max_num_points (params self) ≠ None ∧
  LaserExtractor.Shape self
    = (Raise (ValueError "Dimension -1 must be >= 0"), self) ∧
  (∃ dtypes, LaserExtractor.DType self = (Ok dtypes, self) ∧
             is_Some (dtypes !! "points_padding")) ∧
  ¬ (∃ shapes, LaserExtractor.Shape self = (Ok shapes, self) ∧
               is_Some (shapes !! "points_padding")).
Proof.
  intros self. split; [done|]. split; [by vm_compute|]. split.
  - eexists. split; [reflexivity|]. vm_compute. eauto.
  - intros (shapes & Hshape & _). by vm_compute in Hshape.
Qed.

(** The laser extractor with 1024 points and 4 features: no size is
    negative, and [Shape()] has the field [points_padding]. *)
Lemma points_padding_iff_max_num_points_witness :
  let self :=
    LaserExtractor.new
      (LaserExtractor.Set_num_features 4
         (LaserExtractor.Set_max_num_points (Some 1024)
            (LaserExtractor.Params "LaserExtractor"))) in
  ∃ shapes,
    LaserExtractor.Shape self = (Ok shapes, self) ∧
    (is_Some (shapes !! "points_padding") ↔
       LaserExtractor.max_num_points (params self) ≠ None).
Proof.
  intros self.
  exact (proj1 (proj2 (points_padding_iff_max_num_points self)) eq_refl).
Defined.

(** With [max_num_points = -1], [DType()] has a key set and [Shape()]
    has none: it raises. *)
Lemma Shape_DType_same_keys_counterexample :
  let self := Samples.negative_points in
  ¬ (∃ shapes dtypes,
       LaserExtractor.Shape self = (Ok shapes, self) ∧
       LaserExtractor.DType self = (Ok dtypes, self) ∧
       dom shapes = dom dtypes).
Proof.
  intros self (shapes & dtypes & Hshape & _). by vm_compute in Hshape.
Qed.

Lemma Shape_DType_same_keys_witness :
  let self :=
    LaserExtractor.new
      (LaserExtractor.Set_num_features 4
         (LaserExtractor.Set_max_num_points (Some 1024)
            (LaserExtractor.Params "LaserExtractor"))) in
  ∃ shapes dtypes,
    LaserExtractor.Shape self = (Ok shapes, self) ∧
    LaserExtractor.DType self = (Ok dtypes, self) ∧
    dom shapes = dom dtypes ∧
    IsCompatible shapes dtypes = true.
Proof.
  intros self. exact (proj1 (Shape_DType_same_keys self) eq_refl).
Defined.

(** The declarations of the laser extractor with 1024 points and 4
    features, read a second time from an object with the same
    parameters. *)
Lemma Shape_DType_FeatureMap_idempotent_witness :
  let p := LaserExtractor.Set_num_features 4
             (LaserExtractor.Set_max_num_points (Some 1024)
                (LaserExtractor.Params "LaserExtractor")) in
  ∃ shape_outcome dtypes,
    calls LaserExtractor.Shape 3 (LaserExtractor.new p)
      = ([shape_outcome; shape_outcome; shape_outcome],
         LaserExtractor.new p) ∧
    LaserExtractor.DType (LaserExtractor.new p)
      = (Ok dtypes, LaserExtractor.new p).
Proof.
  intros p.
  destruct (Shape_DType_FeatureMap_idempotent (LaserExtractor.new p))
    as (outcome & dtypes & Hshape & _ & _ & Hparams).
  exists outcome, dtypes. split.
  - exact (Hshape 3%nat).
  - exact (proj2 (Hparams (LaserExtractor.new p) eq_refl)).
Defined.

(** * Further properties *)

(** ** How [Extract] fails *)

Section Extract_failures.
Context {Tensor Self : Type}.
Context `{debug_outputs : !NestedMapDebug Tensor}.
Context `{debug_shapes : !NestedMapDebug tf_TensorShape}.
Implicit Types (cls : Virtual.Extractor Tensor Self).
Implicit Types (features : gmap string Tensor) (self : Self).

(** X1.  A class that supplies [_Extract] but keeps the [Shape] of
    [FieldsExtractor] never gets a value out of [Extract]: when its
    [_Extract] returns, [Extract] raises [NotImplementedError] from
    [Shape], on the object as [_Extract] left it; when its [_Extract]
    raises, [Extract] raises the same exception. *)
Theorem Extract_without_Shape_never_returns
    feature_map extract dtype filter features self :
  let cls := {| Virtual.FeatureMap := feature_map;
                Virtual._Extract := extract;
                Virtual.Shape := FieldsExtractor.Shape;
                Virtual.DType := dtype;
                Virtual.Filter := filter |} in
  match extract features self with
  | (Ok _, self1) =>
      FieldsExtractor.Extract cls features self
        = (Raise NotImplementedError, self1)
  | (Raise e, self1) =>
      FieldsExtractor.Extract cls features self = (Raise e, self1)
  end.
Proof.
  intros cls. rewrite Extract_eq. subst cls. simpl.
  by destruct (extract features self) as [[outputs|e] self1].
Qed.

(** X2.  When [Extract] raises, the exception has one of three origins:
    [_Extract] raised it; or [_Extract] returned and [Shape] raised it; or
    both returned, the output is not compatible with the declared shapes,
    and the exception is the assertion error with the message
    [outputs.DebugString() vs. shapes.DebugString()]. *)
Theorem Extract_raise_inversion cls features self e self' :
  FieldsExtractor.Extract cls features self = (Raise e, self') →
  Virtual._Extract cls features self = (Raise e, self') ∨
  (∃ outputs self1,
      Virtual._Extract cls features self = (Ok outputs, self1) ∧
      Virtual.Shape cls self1 = (Raise e, self')) ∨
  (∃ outputs self1 shapes,
      Virtual._Extract cls features self = (Ok outputs, self1) ∧
      Virtual.Shape cls self1 = (Ok shapes, self') ∧
      IsCompatible outputs shapes = false ∧
      e = AssertionError
            (DebugString outputs +:+ " vs. " +:+ DebugString shapes)).
Proof.
  rewrite Extract_eq.
  destruct (Virtual._Extract cls features self) as [[outputs|e1] self1].
  - destruct (Virtual.Shape cls self1) as [[shapes|e2] self2] eqn:Hshape.
    + destruct (IsCompatible outputs shapes) eqn:Hcompat; [done|].
      intros [= <- <-]. right. right. by exists outputs, self1, shapes.
    + intros [= <- <-]. right. left. by exists outputs, self1.
  - intros [= <- <-]. by left.
Qed.

End Extract_failures.

(** ** The declarations of [LaserExtractor] *)

Section LaserExtractor_declarations.
Context {Self : Type} `{!Layer LaserExtractor.hparams Self}.
Implicit Types (self : Self).

(** The fields a laser extractor declares when [Shape] returns: the two
    point fields, and the padding when [max_num_points] is set. *)
Lemma LaserExtractor_Shape_flat_dom self shapes self' :
  LaserExtractor.Shape self = (Ok shapes, self') →
  flat shapes ∧
  dom shapes =
    {[ "points_xyz"; "points_feature" ]} ∪
    (if LaserExtractor.max_num_points (params self) is Some _
     then {[ "points_padding" ]} else ∅).
Proof.
  intros (_ & _ & [[-> ->] | (n & -> & _ & ->)])%LaserExtractor_Shape_Ok_inv.
  - split; [apply flat_insert, flat_singleton|].
    rewrite !dom_insert_L, dom_singleton_L. set_solver.
  - split; [apply flat_insert, flat_insert, flat_singleton|].
    rewrite !dom_insert_L, dom_singleton_L. set_solver.
Qed.

(** X4.  Whatever the parameters, every field [DType()] declares has the
    type [tf.float32], and the fields are among [points_xyz],
    [points_feature] and [points_padding]. *)
Theorem LaserExtractor_DType_all_float32 self :
  ∃ dtypes,
    LaserExtractor.DType self = (Ok dtypes, self) ∧
    map_Forall (λ _ v, v = Leaf tf_float32) dtypes ∧
    dom dtypes ⊆ {[ "points_xyz"; "points_feature"; "points_padding" ]}.
Proof.
  destruct (LaserExtractor.max_num_points (params self)) as [n|] eqn:Hmax.
  - eexists. split; [exact (LaserExtractor_DType_Some self n Hmax)|]. split.
    + repeat (apply map_Forall_insert_2; [done|]).
      apply map_Forall_empty.
    + rewrite !dom_insert_L, dom_singleton_L. set_solver.
  - eexists. split; [exact (LaserExtractor_DType_None self Hmax)|]. split.
    + repeat (apply map_Forall_insert_2; [done|]).
      apply map_Forall_empty.
    + rewrite !dom_insert_L, dom_singleton_L. set_solver.
Qed.

(** X5.  Whenever [Shape()] returns, the shapes it declares are fully
    specified exactly when [max_num_points] is not [None]. *)
Theorem LaserExtractor_Shape_fully_specified_iff self shapes self' :
  LaserExtractor.Shape self = (Ok shapes, self') →
  (fully_specified shapes = true ↔
     LaserExtractor.max_num_points (params self) ≠ None).
Proof.
  intros (_ & _ & [[-> ->] | (n & -> & _ & ->)])%LaserExtractor_Shape_Ok_inv.
  - split; [intros Hfull; by vm_compute in Hfull | done].
  - split; [done | intros _; by vm_compute].
Qed.

Local Ltac leaf_shape_ok :=
  eexists; split; [reflexivity|]; simpl; split; [reflexivity|];
  split; [lia|];
  rewrite ?Forall_cons; repeat split; try apply Forall_nil_2;
  try (intros ? [= <-]; lia); try (by intros ? [=]).

(** X6.  Whenever [Shape()] returns, every field it declares is a plain
    shape of one or two dimensions whose first dimension is
    [max_num_points] and none of whose known sizes is negative. *)
Theorem LaserExtractor_Shape_leading_dimension self shapes self' :
  LaserExtractor.Shape self = (Ok shapes, self') →
  map_Forall
    (λ _ v, ∃ s, v = Leaf s ∧
                 head (dims s)
                   = Some (LaserExtractor.max_num_points (params self)) ∧
                 (length (dims s) ≤ 2)%nat ∧
                 Forall (λ d, ∀ n, d = Some n → 0 ≤ n) (dims s))
    shapes.
Proof.
  intros (_ & Hf & [[Hmax ->] | (n & Hmax & Hn & ->)])
    %LaserExtractor_Shape_Ok_inv; rewrite Hmax.
  - repeat (apply map_Forall_insert_2; [leaf_shape_ok|]).
    apply map_Forall_empty.
  - repeat (apply map_Forall_insert_2; [leaf_shape_ok|]).
    apply map_Forall_empty.
Qed.

(** X8.  [Shape()] refuses a negative size with the [ValueError] of
    [tf.TensorShape] and leaves the object alone: a negative
    [max_num_points] is reported first; a negative [num_features] is
    reported when [max_num_points] is [None] or not negative.  With no
    negative size [Shape()] returns. *)
Theorem LaserExtractor_Shape_ValueError self :
  let p := params self in
  let refuses d :=
    LaserExtractor.Shape self =
      (Raise (ValueError ("Dimension " +:+ pretty d +:+ " must be >= 0")),
       self) in
  (∀ n, LaserExtractor.max_num_points p = Some n → n < 0 → refuses n) ∧
  (LaserExtractor.num_features p < 0 →
     (∀ n, LaserExtractor.max_num_points p = Some n → 0 ≤ n) →
     refuses (LaserExtractor.num_features p)) ∧
  (nonnegative_sizes p = true →
     ∃ shapes, LaserExtractor.Shape self = (Ok shapes, self)).
Proof.
  intros p refuses. subst p refuses. split; [|split].
  - intros n Hmax Hn. apply LaserExtractor_Shape_raises.
    unfold offending_size. rewrite Hmax.
    by destruct (Z.ltb_spec n 0); [|lia].
  - intros Hf Hn. apply LaserExtractor_Shape_raises.
    unfold offending_size.
    destruct (LaserExtractor.max_num_points (params self)) as [n|].
    + specialize (Hn n eq_refl). destruct (Z.ltb_spec n 0); [lia|].
      by destruct (Z.ltb_spec (LaserExtractor.num_features (params self)) 0);
        [|lia].
    + by destruct (Z.ltb_spec (LaserExtractor.num_features (params self)) 0);
        [|lia].
  - intros Hsizes.
    destruct (LaserExtractor_Shape_cases self) as [[_ ?] | [Hfalse _]];
      [done|congruence].
Qed.

End LaserExtractor_declarations.

(** ** [Extract] on a subclass of [LaserExtractor] *)

Section LaserExtractor_subclass.
Context {Tensor Self : Type} `{!Layer LaserExtractor.hparams Self}.
Context `{debug_outputs : !NestedMapDebug Tensor}.
Context `{debug_shapes : !NestedMapDebug tf_TensorShape}.

(** X7.  Take a class that keeps the [Shape] of [LaserExtractor] and
    brings its own [_Extract], on an object none of whose sizes is
    negative.  When [_Extract] returns an output without nesting,
    [Extract] hands that output back exactly when its fields are
    [points_xyz] and [points_feature], together with [points_padding] if
    and only if [max_num_points] is set; with any other set of fields it
    raises an assertion error.  The object is left as [_Extract] left
    it. *)
Theorem LaserExtractor_subclass_Extract_fields
    feature_map extract dtype filter
    (features : gmap string Tensor) (self self1 : Self)
    (outputs : NestedMap Tensor) :
  let cls := {| Virtual.FeatureMap := feature_map;
                Virtual._Extract := extract;
                Virtual.Shape := LaserExtractor.Shape;
                Virtual.DType := dtype;
                Virtual.Filter := filter |} in
  let fields : gset string :=
    {[ "points_xyz"; "points_feature" ]} ∪
    (if LaserExtractor.max_num_points (params self1) is Some _
     then {[ "points_padding" ]} else ∅) in
  extract features self = (Ok outputs, self1) →
  nonnegative_sizes (params self1) = true →
  flat outputs →
  (dom outputs = fields →
     FieldsExtractor.Extract cls features self = (Ok outputs, self1)) ∧
  (dom outputs ≠ fields →
     ∃ msg, FieldsExtractor.Extract cls features self
              = (Raise (AssertionError msg), self1)).
Proof.
  intros cls fields Hextract Hsizes Hflat.
  destruct (LaserExtractor_Shape_cases self1)
    as [[_ [shapes Hshape]] | [Hfalse _]]; [|congruence].
  destruct (LaserExtractor_Shape_flat_dom self1 shapes self1 Hshape)
    as [Hflat_shapes Hdom].
  rewrite Extract_eq. subst cls.
  cbn [Virtual._Extract Virtual.Shape]. rewrite Hextract, Hshape.
  fold fields in Hdom. rewrite <- Hdom.
  pose proof (IsCompatible_flat outputs shapes Hflat Hflat_shapes) as Hcompat.
  split; intros Hfields.
  - apply Hcompat in Hfields. by rewrite Hfields.
  - destruct (IsCompatible outputs shapes) eqn:Heq.
    + exfalso. apply Hfields. by apply Hcompat.
    + eauto.
Qed.

(** X9.  On an object with a negative size, a class that keeps the
    [Shape] of [LaserExtractor] gets nothing out of [Extract]: even when
    its [_Extract] returns, [Extract] raises the [ValueError] of
    [Shape], whatever the output was. *)
Theorem LaserExtractor_subclass_Extract_ValueError
    feature_map extract dtype filter
    (features : gmap string Tensor) (self self1 : Self)
    (outputs : NestedMap Tensor) :
  let cls := {| Virtual.FeatureMap := feature_map;
                Virtual._Extract := extract;
                Virtual.Shape := LaserExtractor.Shape;
                Virtual.DType := dtype;
                Virtual.Filter := filter |} in
  extract features self = (Ok outputs, self1) →
  nonnegative_sizes (params self1) = false →
  ∃ msg, FieldsExtractor.Extract cls features self
           = (Raise (ValueError msg), self1).
Proof.
  intros cls Hextract Hsizes.
  destruct (LaserExtractor_Shape_cases self1)
    as [[Htrue _] | [_ [msg Hshape]]]; [congruence|].
  exists msg. rewrite Extract_eq. subst cls.
  cbn [Virtual._Extract Virtual.Shape]. by rewrite Hextract, Hshape.
Qed.

End LaserExtractor_subclass.

(** ** The further properties at concrete objects *)

(** The three origins at the sample whose output lacks [points_feature]:
    the failure is the assertion error. *)
Lemma Extract_raise_inversion_witness :
  let cls := Samples.extractor Samples.xyz_only in
  let e := AssertionError "points_xyz vs. points_xyz,points_feature" in
  Virtual._Extract cls ∅ () = (Raise e, ()) ∨
  (∃ outputs self1,
      Virtual._Extract cls ∅ () = (Ok outputs, self1) ∧
      Virtual.Shape cls self1 = (Raise e, ())) ∨
  (∃ outputs self1 shapes,
      Virtual._Extract cls ∅ () = (Ok outputs, self1) ∧
      Virtual.Shape cls self1 = (Ok shapes, ()) ∧
      IsCompatible outputs shapes = false ∧
      e = AssertionError
            (Samples.show_keys outputs +:+ " vs. "
               +:+ Samples.show_keys shapes)).
Proof.
  intros cls e.
  apply (Extract_raise_inversion (debug_outputs:=Samples.show_keys)
           (debug_shapes:=Samples.show_keys) cls ∅ () e ()).
  vm_compute. reflexivity.
Defined.

(** The declaration of the laser extractor with 1024 points and 4
    features is fully specified. *)
Lemma LaserExtractor_Shape_fully_specified_iff_witness :
  let self :=
    LaserExtractor.new
      (LaserExtractor.Set_num_features 4
         (LaserExtractor.Set_max_num_points (Some 1024)
            (LaserExtractor.Params "LaserExtractor"))) in
  fully_specified
    {[ "points_xyz" := Leaf (TensorShape [Some 1024; Some 3]);
       "points_feature" := Leaf (TensorShape [Some 1024; Some 4]);
       "points_padding" := Leaf (TensorShape [Some 1024]) ]} = true ↔
  LaserExtractor.max_num_points (params self) ≠ None.
Proof.
  intros self.
  apply (LaserExtractor_Shape_fully_specified_iff self _ self).
  vm_compute. reflexivity.
Defined.

(** The fields of the default laser extractor all lead with the unknown
    dimension. *)
Lemma LaserExtractor_Shape_leading_dimension_witness :
  let self := LaserExtractor.new (LaserExtractor.Params "LaserExtractor") in
  map_Forall
    (λ _ v, ∃ s, v = Leaf s ∧
                 head (dims s)
                   = Some (LaserExtractor.max_num_points (params self)) ∧
                 (length (dims s) ≤ 2)%nat ∧
                 Forall (λ d, ∀ n, d = Some n → 0 ≤ n) (dims s))
    ({[ "points_xyz" := Leaf (TensorShape [None; Some 3]);
        "points_feature" := Leaf (TensorShape [None; Some 1]) ]}
       : NestedMap tf_TensorShape).
Proof.
  intros self.
  apply (LaserExtractor_Shape_leading_dimension self _ self).
  vm_compute. reflexivity.
Defined.

(** [Shape()] on the laser extractor with [max_num_points = -1]. *)
Lemma LaserExtractor_Shape_ValueError_witness :
  LaserExtractor.Shape Samples.negative_points
    = (Raise (ValueError ("Dimension " +:+ pretty (-1) +:+ " must be >= 0")),
       Samples.negative_points).
Proof.
  apply (proj1 (LaserExtractor_Shape_ValueError Samples.negative_points)
           (-1)); [reflexivity|lia].
Defined.

(** A subclass of [LaserExtractor] with default parameters whose
    [_Extract] returns the two point fields: [Extract] returns them. *)
Lemma LaserExtractor_subclass_Extract_fields_witness :
  let self := LaserExtractor.new (LaserExtractor.Params "Sample") in
  FieldsExtractor.Extract (debug_outputs:=Samples.show_keys)
      (debug_shapes:=Samples.show_keys)
      {| Virtual.FeatureMap := FieldsExtractor.FeatureMap;
         Virtual._Extract := λ _, mret Samples.xyz_and_feature;
         Virtual.Shape := LaserExtractor.Shape;
         Virtual.DType := LaserExtractor.DType;
         Virtual.Filter := FieldsExtractor.Filter |} ∅ self
    = (Ok Samples.xyz_and_feature, self).
Proof.
  intros self.
  refine (proj1 (LaserExtractor_subclass_Extract_fields
                   (debug_outputs:=Samples.show_keys)
                   (debug_shapes:=Samples.show_keys)
                   FieldsExtractor.FeatureMap
                   (λ _, mret Samples.xyz_and_feature)
                   LaserExtractor.DType FieldsExtractor.Filter
                   ∅ self self Samples.xyz_and_feature eq_refl eq_refl _) _).
  - apply flat_insert, flat_singleton.
  - vm_compute. reflexivity.
Defined.

(** The same subclass on the object with [max_num_points = -1]:
    [Extract] raises the [ValueError]. *)
Lemma LaserExtractor_subclass_Extract_ValueError_witness :
  ∃ msg,
    FieldsExtractor.Extract (debug_outputs:=Samples.show_keys)
        (debug_shapes:=Samples.show_keys)
        {| Virtual.FeatureMap := FieldsExtractor.FeatureMap;
           Virtual._Extract := λ _, mret Samples.xyz_and_feature;
           Virtual.Shape := LaserExtractor.Shape;
           Virtual.DType := LaserExtractor.DType;
           Virtual.Filter := FieldsExtractor.Filter |} ∅
        Samples.negative_points
      = (Raise (ValueError msg), Samples.negative_points).
Proof.
  exact (LaserExtractor_subclass_Extract_ValueError
           (debug_outputs:=Samples.show_keys)
           (debug_shapes:=Samples.show_keys)
           FieldsExtractor.FeatureMap
           (λ _, mret Samples.xyz_and_feature)
           LaserExtractor.DType FieldsExtractor.Filter
           ∅ Samples.negative_points Samples.negative_points
           Samples.xyz_and_feature eq_refl eq_refl).
Defined.
